(** * A shallow embedding of the snake game engine of snake-vscode

    The embedded code is the class [SnakeGame] of [src/snakeGame.ts]
    (its compiled form is the second half of the unnamed JS part); the
    boundary-wrap of the older compiled build (first half of that part) is
    embedded as [getNewHead_v1].

    Conventions of the embedding:
    - JS numbers used as line and column indices are [Z];
    - a document line is an ASCII [string] (one character per UTF-16 code
      unit of the Latin-1 range); [String.prototype.trim] drops the
      ECMAScript white space and line terminators of that range;
    - [Math.random()] is an oracle [random : nat -> Q]; the n-th call of the
      session reads [random n], the state counts the calls made so far;
    - a thrown exception (a [lineAt] out of range, a read of an undefined
      head) is [None];
    - a [vscode.TextDocument] always has at least one line: the document is
      a first line and the list of the others;
    - the editor decorations currently applied are a list of marks; a
      deferred [setTimeout] callback is a pending entry in [timers]. *)

From Stdlib Require Import ZArith QArith Qround List String Ascii Bool Lia.
Import ListNotations.

Open Scope Z_scope.

Notation "'let*' x ':=' e 'in' k" :=
  (match e with Some x => k | None => None end)
  (at level 200, x name, e at level 100, k at level 200).

(** ** Data model *)

Record Position := mkPos { line : Z; char : Z }.

Inductive Direction := Up | Down | Left | Right.

Definition Direction_eqb (a b : Direction) : bool :=
  match a, b with
  | Up, Up | Down, Down | Left, Left | Right, Right => true
  | _, _ => false
  end.

Record Document := mkDoc {
  firstLine : string;
  otherLines : list string;
  languageId : string
}.

Definition lines (d : Document) : list string := firstLine d :: otherLines d.

(** [document.lineCount] *)
Definition lineCount (d : Document) : Z := Z.of_nat (List.length (lines d)).

(** [document.lineAt(i).text]; throws out of range. *)
Definition lineAt (d : Document) (i : Z) : option string :=
  if i <? 0 then None else nth_error (lines d) (Z.to_nat i).

Definition len (s : string) : Z := Z.of_nat (String.length s).

(** White space and line terminators of ECMAScript in the range 0..255. *)
Definition is_ws (c : ascii) : bool :=
  let n := nat_of_ascii c in
  ((9 <=? n)%nat && (n <=? 13)%nat) || (n =? 32)%nat || (n =? 160)%nat.

(** [s.trim().length === 0] *)
Definition trim_empty (s : string) : bool := forallb is_ws (list_ascii_of_string s).

(** [s[i]]: a one-character string, or [undefined] out of range. *)
Definition char_at (s : string) (i : Z) : option ascii :=
  if i <? 0 then None else String.get (Z.to_nat i) s.

(** A decoration range [new vscode.Range(l1, c1, l2, c2)]. *)
Record Range := mkRange { startLine : Z; startChar : Z; endLine : Z; endChar : Z }.

Inductive Decoration :=
| HeadMark (r : Range)
| BodyMarks (rs : list Range)
| FoodMark (r : Range)
| HiddenMarks (rs : list Range).

Record Game := mkGame {
  snake : list Position;
  direction : Direction;
  food : option Position;
  score : Z;
  isRunning : bool;
  isPaused : bool;
  gameLoop : bool;              (* the interval of [start] is registered *)
  keyListener : bool;           (* the commands of [setupKeyBindings] are registered *)
  hiddenLines : list Z;         (* a JS [Set<number>], insertion ordered *)
  pointsPerFood : Z;
  commentSingle : list string;  (* literal prefixes of the single-line comment regexes *)
  maxColumn : Z;
  decorations : list Decoration;
  timers : list Z;              (* pending hidden-line expiry callbacks, by line *)
  draws : nat                   (* calls of [Math.random()] so far *)
}.

(** Field setters. *)
Definition set_snake s g := mkGame s (direction g) (food g) (score g) (isRunning g) (isPaused g) (gameLoop g) (keyListener g) (hiddenLines g) (pointsPerFood g) (commentSingle g) (maxColumn g) (decorations g) (timers g) (draws g).
Definition set_direction d g := mkGame (snake g) d (food g) (score g) (isRunning g) (isPaused g) (gameLoop g) (keyListener g) (hiddenLines g) (pointsPerFood g) (commentSingle g) (maxColumn g) (decorations g) (timers g) (draws g).
Definition set_food f g := mkGame (snake g) (direction g) f (score g) (isRunning g) (isPaused g) (gameLoop g) (keyListener g) (hiddenLines g) (pointsPerFood g) (commentSingle g) (maxColumn g) (decorations g) (timers g) (draws g).
Definition set_score s g := mkGame (snake g) (direction g) (food g) s (isRunning g) (isPaused g) (gameLoop g) (keyListener g) (hiddenLines g) (pointsPerFood g) (commentSingle g) (maxColumn g) (decorations g) (timers g) (draws g).
Definition set_isRunning b g := mkGame (snake g) (direction g) (food g) (score g) b (isPaused g) (gameLoop g) (keyListener g) (hiddenLines g) (pointsPerFood g) (commentSingle g) (maxColumn g) (decorations g) (timers g) (draws g).
Definition set_isPaused b g := mkGame (snake g) (direction g) (food g) (score g) (isRunning g) b (gameLoop g) (keyListener g) (hiddenLines g) (pointsPerFood g) (commentSingle g) (maxColumn g) (decorations g) (timers g) (draws g).
Definition set_gameLoop b g := mkGame (snake g) (direction g) (food g) (score g) (isRunning g) (isPaused g) b (keyListener g) (hiddenLines g) (pointsPerFood g) (commentSingle g) (maxColumn g) (decorations g) (timers g) (draws g).
Definition set_keyListener b g := mkGame (snake g) (direction g) (food g) (score g) (isRunning g) (isPaused g) (gameLoop g) b (hiddenLines g) (pointsPerFood g) (commentSingle g) (maxColumn g) (decorations g) (timers g) (draws g).
Definition set_hiddenLines h g := mkGame (snake g) (direction g) (food g) (score g) (isRunning g) (isPaused g) (gameLoop g) (keyListener g) h (pointsPerFood g) (commentSingle g) (maxColumn g) (decorations g) (timers g) (draws g).
Definition set_decorations ds g := mkGame (snake g) (direction g) (food g) (score g) (isRunning g) (isPaused g) (gameLoop g) (keyListener g) (hiddenLines g) (pointsPerFood g) (commentSingle g) (maxColumn g) ds (timers g) (draws g).
Definition set_timers ts g := mkGame (snake g) (direction g) (food g) (score g) (isRunning g) (isPaused g) (gameLoop g) (keyListener g) (hiddenLines g) (pointsPerFood g) (commentSingle g) (maxColumn g) (decorations g) ts (draws g).
Definition set_draws n g := mkGame (snake g) (direction g) (food g) (score g) (isRunning g) (isPaused g) (gameLoop g) (keyListener g) (hiddenLines g) (pointsPerFood g) (commentSingle g) (maxColumn g) (decorations g) (timers g) n.

(** [Set.prototype.add] and [Set.prototype.delete] on an insertion-ordered set. *)
Definition set_add (x : Z) (s : list Z) : list Z :=
  if existsb (Z.eqb x) s then s else s ++ [x].

Definition set_delete (x : Z) (s : list Z) : list Z :=
  filter (fun y => negb (y =? x)) s.

Fixpoint remove_first (x : Z) (s : list Z) : list Z :=
  match s with
  | [] => []
  | y :: s' => if y =? x then s' else y :: remove_first x s'
  end.

Fixpoint map_opt {A B : Type} (f : A -> option B) (l : list A) : option (list B) :=
  match l with
  | [] => Some []
  | x :: l' => let* y := f x in let* ys := map_opt f l' in Some (y :: ys)
  end.

(** ** Session setup (constructor) *)

(** [calculatePoints] *)
Definition calculatePoints (lc : Z) : Z := Z.max 1 (lc / 10).

(** [detectLanguage]: the single-line comment regexes [/\/\/.*/] and
    [/#.*/] match at the first occurrence of their literal prefix, since
    [.*] also matches the empty string; the multi-line patterns are never
    consulted by [isInComment]. *)
Definition detectLanguage (languageId : string) : list string :=
  if existsb (String.eqb languageId)
       ["javascript"; "typescript"; "java"; "c"; "cpp"; "csharp"; "go"; "rust"]%string
  then ["//"]%string
  else if existsb (String.eqb languageId) ["python"; "ruby"; "shell"; "bash"]%string
  then ["#"]%string
  else [].

(** [calculateViewportWidth]: [visibleEnd] is [visibleRanges[0].end.character]
    when there is a visible range. *)
Definition calculateViewportWidth (visibleEnd : option Z) : Z :=
  match visibleEnd with
  | Some e => Z.min 150 (Z.max 80 (e + 20))
  | None => 120
  end.

(** [new SnakeGame(editor)] *)
Definition construct (doc : Document) (visibleEnd : option Z) : Game :=
  {| snake := []; direction := Left; food := None; score := 0;
     isRunning := false; isPaused := false; gameLoop := false; keyListener := false;
     hiddenLines := []; pointsPerFood := calculatePoints (lineCount doc);
     commentSingle := detectLanguage (languageId doc);
     maxColumn := calculateViewportWidth visibleEnd;
     decorations := []; timers := []; draws := 0 |}.

(** ** Movement *)

(** [getNewHead] of [src/snakeGame.ts]. *)
Definition getNewHead (doc : Document) (g : Game) (head : Position) : option Position :=
  match direction g with
  | Up =>
      let l := line head - 1 in
      let l := if l <? 0 then lineCount doc - 1 else l in
      let* upLine := lineAt doc l in
      Some (mkPos l (Z.min (char head) (Z.min (len upLine) (maxColumn g - 1))))
  | Down =>
      let l := line head + 1 in
      let l := if l >=? lineCount doc then 0 else l in
      let* downLine := lineAt doc l in
      Some (mkPos l (Z.min (char head) (Z.min (len downLine) (maxColumn g - 1))))
  | Left =>
      let c := char head - 1 in
      Some (mkPos (line head) (if c <? 0 then maxColumn g - 1 else c))
  | Right =>
      let c := char head + 1 in
      Some (mkPos (line head) (if c >=? maxColumn g then 0 else c))
  end.

(** [getNewHead] of the older compiled build (first half of the unnamed JS
    part): horizontal moves wrap to the neighbouring line. *)
Definition getNewHead_v1 (doc : Document) (dir : Direction) (head : Position) : option Position :=
  match dir with
  | Up =>
      let l := line head - 1 in
      Some (mkPos (if l <? 0 then lineCount doc - 1 else l) (char head))
  | Down =>
      let l := line head + 1 in
      Some (mkPos (if l >=? lineCount doc then 0 else l) (char head))
  | Left =>
      let c := char head - 1 in
      if c <? 0 then
        let l := line head - 1 in
        let l := if l <? 0 then lineCount doc - 1 else l in
        let* t := lineAt doc l in
        Some (mkPos l (Z.max 0 (len t)))
      else Some (mkPos (line head) c)
  | Right =>
      let* currentLine := lineAt doc (line head) in
      let c := char head + 1 in
      if c >? len currentLine + 5 then
        let l := line head + 1 in
        Some (mkPos (if l >=? lineCount doc then 0 else l) 0)
      else Some (mkPos (line head) c)
  end.

(** [checkCollision]: the position is one of the cells of [snake]. *)
Definition checkCollision (snake : list Position) (pos : Position) : bool :=
  existsb (fun s => (line s =? line pos) && (char s =? char pos)) snake.

(** ** Food *)

(** [Math.floor(Math.random() * n)] *)
Definition randomIndex (r : Q) (n : Z) : Z := Qfloor (r * inject_Z n).

Definition spawnFallback (doc : Document) : Position := mkPos (lineCount doc / 2) 10.

(** One attempt of [spawnFood]: [line], [lineLength], [char] drawn with the
    [Math.random()] calls [n] and [n + 1]. *)
Definition sampleCell (doc : Document) (random : nat -> Q) (n : nat) : option Position :=
  let l := randomIndex (random n) (lineCount doc) in
  let* t := lineAt doc l in
  let lineLength := Z.max 10 (len t) in
  let c := randomIndex (random (S n)) lineLength in
  Some (mkPos l c).

(** The [while (attempts < 100)] loop of [spawnFood], by the number of
    attempts left ([100 - attempts]); [n] counts the [Math.random()] calls.
    Returns the food cell and the new call count. *)
Fixpoint spawn_loop (doc : Document) (random : nat -> Q) (snake : list Position)
    (left : nat) (n : nat) : option (Position * nat) :=
  match left with
  | O => Some (spawnFallback doc, n)
  | S left' =>
      let* pos := sampleCell doc random n in
      if negb (checkCollision snake pos) then Some (pos, S (S n))
      else spawn_loop doc random snake left' (S (S n))
  end.

(** [spawnFood] *)
Definition spawnFood (doc : Document) (random : nat -> Q) (g : Game) : option Game :=
  let* r := spawn_loop doc random (snake g) 100 (draws g) in
  let '(pos, n) := r in
  Some (set_draws n (set_food (Some pos) g)).

(** ** Text collision *)

(** [isInComment] *)
Fixpoint isInComment (patterns : list string) (lineText : string) (charPos : Z) : bool :=
  match patterns with
  | [] => false
  | p :: ps =>
      match String.index 0 p lineText with
      | Some commentStart => if charPos >=? Z.of_nat commentStart then true
                             else isInComment ps lineText charPos
      | None => isInComment ps lineText charPos
      end
  end.

(** The condition [pos.char >= 0 && pos.char < lineText.length &&
    lineText[pos.char].trim() !== ''] *)
Definition hitsText (lineText : string) (c : Z) : bool :=
  (c >=? 0) && (c <? len lineText) &&
  match char_at lineText c with Some x => negb (is_ws x) | None => false end.

(** [checkTextCollision]; the [setTimeout] schedules an expiry callback. *)
Definition checkTextCollision (doc : Document) (pos : Position) (g : Game) : option Game :=
  if (line pos <? 0) || (line pos >=? lineCount doc) then Some g else
  let* lineText := lineAt doc (line pos) in
  if trim_empty lineText then Some g else
  if hitsText lineText (char pos) then
    let g1 := if isInComment (commentSingle g) lineText (char pos)
              then set_score (score g + pointsPerFood g / 2) g else g in
    Some (set_timers (timers g1 ++ [line pos])
            (set_hiddenLines (set_add (line pos) (hiddenLines g1)) g1))
  else Some g.

(** ** Presentation *)

Definition clampLine (doc : Document) (l : Z) : Z := Z.max 0 (Z.min l (lineCount doc - 1)).

Definition cellRange (doc : Document) (p : Position) (w : Z) : Range :=
  let l := clampLine doc (line p) in
  let c := Z.max 0 (char p) in
  mkRange l c l (c + w).

(** [render]: [clearDecorations], then one decoration per category. *)
Definition render (doc : Document) (g : Game) : option Game :=
  let headMarks := match snake g with h :: _ => [HeadMark (cellRange doc h 1)] | [] => [] end in
  let bodyMarks := match snake g with
                   | _ :: ((_ :: _) as rest) => [BodyMarks (map (fun p => cellRange doc p 1) rest)]
                   | _ => []
                   end in
  let foodMarks := match food g with Some f => [FoodMark (cellRange doc f 3)] | None => [] end in
  let* hiddenMarks :=
    match hiddenLines g with
    | [] => Some []
    | hs =>
        let* rs := map_opt (fun l => let v := clampLine doc l in
                                     let* t := lineAt doc v in
                                     Some (mkRange v 0 v (len t))) hs in
        Some [HiddenMarks rs]
    end in
  Some (set_decorations (headMarks ++ bodyMarks ++ foodMarks ++ hiddenMarks) g).

(** [clearDecorations] *)
Definition clearDecorations (g : Game) : Game := set_decorations [] g.

(** ** Termination *)

(** [dispose]: stops the interval, unregisters the commands, clears the
    decorations (the status bar and the context key are not modelled). *)
Definition dispose (g : Game) : Game :=
  clearDecorations (set_keyListener false (set_gameLoop false (set_isRunning false g))).

(** [gameOver] *)
Definition gameOver (g : Game) : Game :=
  dispose (set_gameLoop false (set_isRunning false g)).

(** [stopGame] *)
Definition stopGame (g : Game) : Game :=
  if negb (isRunning g) then g else dispose g.

(** [togglePause] *)
Definition togglePause (g : Game) : Game :=
  if negb (isRunning g) then g else set_isPaused (negb (isPaused g)) g.

(** ** The tick *)

(** [update]; [scrollToSnake] and [updateStatusBar] only touch the viewport
    and the status bar and are not modelled. *)
Definition update (doc : Document) (random : nat -> Q) (g : Game) : option Game :=
  if negb (isRunning g) || isPaused g then Some g else
  match snake g with
  | [] => None  (* [this.snake[0]] is undefined: reading [head.line] throws *)
  | head :: _ =>
      let* newHead := getNewHead doc g head in
      if checkCollision (snake g) newHead then Some (gameOver g) else
      let g1 := set_snake (newHead :: snake g) g in
      let* g2 :=
        match food g1 with
        | Some f =>
            if (line newHead =? line f) && (char newHead =? char f)
            then spawnFood doc random (set_score (score g1 + pointsPerFood g1) g1)
            else Some (set_snake (removelast (snake g1)) g1)
        | None => Some (set_snake (removelast (snake g1)) g1)
        end in
      let* g3 := checkTextCollision doc newHead g2 in
      render doc g3
  end.

(** ** Input commands *)

(** The four arrow commands of [setupKeyBindings]: [snakegame.up] checks
    [this.direction !== 'down'], and so on. *)
Definition directionCommand (d : Direction) (g : Game) : Game :=
  let forbidden := match d with Up => Down | Down => Up | Left => Right | Right => Left end in
  if isRunning g && negb (isPaused g) && negb (Direction_eqb (direction g) forbidden)
  then set_direction d g else g.

(** ** Deferred hidden-line expiry *)

(** The body of the [setTimeout] callback of [checkTextCollision]. *)
Definition expireHiddenLine (doc : Document) (l : Z) (g : Game) : option Game :=
  render doc (set_hiddenLines (set_delete l (hiddenLines g)) g).

(** ** Session *)

(** [initializeSnake] of [src/snakeGame.ts]. *)
Definition initializeSnake (doc : Document) (g : Game) : option Game :=
  let* firstLineText := lineAt doc 0 in
  let startChar := Z.min (len firstLineText) (maxColumn g - 3) in
  Some (set_direction Left
          (set_snake [mkPos 0 startChar; mkPos 0 (startChar + 1); mkPos 0 (startChar + 2)] g)).

(** [start] *)
Definition start (doc : Document) (random : nat -> Q) (g : Game) : option Game :=
  let g0 := set_isRunning true g in
  let* g1 := initializeSnake doc g0 in
  let* g2 := spawnFood doc random g1 in
  let g3 := set_gameLoop true (set_keyListener true g2) in
  render doc g3.

Inductive Event :=
| Start
| Tick
| Command (d : Direction)
| PauseCmd
| StopCmd
| ExitCmd
| Expire (l : Z).

(** One event of a session: a tick fires only while the interval is
    registered, a command only while the commands are registered, an expiry
    callback only when it is pending. *)
Definition step (doc : Document) (random : nat -> Q) (ev : Event) (g : Game) : option Game :=
  match ev with
  | Start => start doc random g
  | Tick => if gameLoop g then update doc random g else Some g
  | Command d => if keyListener g then Some (directionCommand d g) else Some g
  | PauseCmd => if keyListener g then Some (togglePause g) else Some g
  | StopCmd => if keyListener g then Some (stopGame g) else Some g
  | ExitCmd => if keyListener g then Some (gameOver g) else Some g
  | Expire l =>
      if existsb (Z.eqb l) (timers g)
      then expireHiddenLine doc l (set_timers (remove_first l (timers g)) g)
      else Some g
  end.

Fixpoint run (doc : Document) (random : nat -> Q) (evs : list Event) (g : Game) : option Game :=
  match evs with
  | [] => Some g
  | ev :: evs' => let* g' := step doc random ev g in run doc random evs' g'
  end.

(** ** Sample session *)

Definition rnd0 : nat -> Q := fun _ => 0%Q.

Definition doc_plain : Document := mkDoc "abcdef" [] "plaintext".

Definition tick_on_text : option Game :=
  run doc_plain rnd0 [Start; Tick] (construct doc_plain None).

(** ** Predicates used by the statements *)

(** The heading opposite to [d]. *)
Definition opposite (d : Direction) : Direction :=
  match d with Up => Down | Down => Up | Left => Right | Right => Left end.

(** Whether the head lands on a non-white-space character of a single-line
    comment: the condition of the comment bonus. *)
Definition commentBite (doc : Document) (g : Game) (pos : Position) : bool :=
  match lineAt doc (line pos) with
  | Some t => hitsText t (char pos) && isInComment (commentSingle g) t (char pos)
  | None => false
  end.

(** ** Concrete sessions for the witnesses *)

(** A TypeScript document of twenty lines, hence two points per food, whose
    first line is a comment. *)
Definition doc_comment : Document := mkDoc "//abc" (repeat ""%string 19) "typescript".

(** The snake moves left onto the food cell [(0, 2)], the [a] of the
    comment. *)
Definition g_comment : Game :=
  set_food (Some (mkPos 0 2))
    (set_isRunning true (set_snake [mkPos 0 3; mkPos 0 4; mkPos 0 5] (construct doc_comment None))).

Definition g_comment_next : Game :=
  match update doc_comment rnd0 g_comment with Some g => g | None => g_comment end.

(** A running snake heading left whose next cell [(0, 2)] is its own tail. *)
Definition g_collide : Game :=
  set_isRunning true (set_snake [mkPos 0 3; mkPos 0 2; mkPos 0 1] (construct doc_plain None)).

(** Line [l] exists and its trimmed text is not empty. *)
Definition nonBlankLine (doc : Document) (l : Z) : Prop :=
  exists t, lineAt doc l = Some t /\ trim_empty t = false.

(** No hidden line is blank. *)
Definition noBlankHidden (doc : Document) (g : Game) : Prop :=
  forall l, In l (hiddenLines g) -> nonBlankLine doc l.

(** A document of one empty line: every attempt draws a cell of line 0
    with a column below [max(10, 0) = 10]. *)
Definition doc_short : Document := mkDoc "" [] "plaintext".

(** A snake on the cells [(0, 0) .. (0, 10)]: every sampled cell and the
    fallback cell [(0, 10)]. *)
Definition snake_full : list Position := map (fun c => mkPos 0 c) [0; 1; 2; 3; 4; 5; 6; 7; 8; 9; 10].

Definition g_full : Game := set_snake snake_full (construct doc_short None).

(** The state of [doc_plain] after [start], one tick onto the text of line 0
    (which hides it and schedules its expiry) and the exit command. *)
Definition g_over : Game :=
  match run doc_plain rnd0 [Start; Tick; ExitCmd] (construct doc_plain None) with
  | Some g => g
  | None => construct doc_plain None
  end.

Definition or_else (o : option Game) (d : Game) : Game :=
  match o with Some g => g | None => d end.

Definition g_started : Game :=
  or_else (start doc_plain rnd0 (construct doc_plain None)) (construct doc_plain None).

(** ** Predicates of the further properties *)

(** All the ranges of the applied decorations. *)
Definition decoRanges (d : Decoration) : list Range :=
  match d with
  | HeadMark r | FoodMark r => [r]
  | BodyMarks rs | HiddenMarks rs => rs
  end.

(** A cell on a line of the document, at a non-negative column. *)
Definition inGrid (doc : Document) (p : Position) : Prop :=
  0 <= line p < lineCount doc /\ 0 <= char p.

(** Every cell of the snake lies in the grid. *)
Definition snakeInGrid (doc : Document) (g : Game) : Prop :=
  Forall (inGrid doc) (snake g).

(** What holds of every state of a session: the viewport width, the snake in
    the grid and not overlapping itself, and a snake to move whenever the
    interval is registered. *)
Definition sessionInv (doc : Document) (g : Game) : Prop :=
  80 <= maxColumn g <= 150 /\ snakeInGrid doc g /\ NoDup (snake g) /\
  (gameLoop g = true -> snake g <> []).

(** ** Concrete sessions for the witnesses of the further properties *)

(** A markup document: its language has no single-line comment pattern. *)
Definition doc_html : Document := mkDoc "<p>hi</p>" [] "html".

Definition g_html : Game := construct doc_html None.


(** ** Sample evaluations *)

Example tick_on_text_hides : option_map hiddenLines tick_on_text = Some [0].
Proof. vm_compute. reflexivity. Qed.

Example scenario_right :
  let doc := mkDoc "                    " (repeat "                    "%string 9) "plaintext" in
  let g := set_direction Right (set_isRunning true (set_snake [mkPos 0 5; mkPos 0 4; mkPos 0 3] (construct doc None))) in
  option_map snake (update doc rnd0 g) = Some [mkPos 0 6; mkPos 0 5; mkPos 0 4].
Proof. vm_compute. reflexivity. Qed.

(** ** Helper lemmas *)

Lemma lineAt_in_range (doc : Document) (i : Z) :
  0 <= i < lineCount doc -> exists t, lineAt doc i = Some t.
Proof.
  intros [H0 H1]. unfold lineAt.
  destruct (Z.ltb_spec i 0); [lia|].
  destruct (nth_error (lines doc) (Z.to_nat i)) eqn:E; [eauto|].
  apply nth_error_None in E. unfold lineCount in H1. lia.
Qed.

Lemma lineCount_pos (doc : Document) : 1 <= lineCount doc.
Proof. unfold lineCount, lines. simpl. lia. Qed.

Lemma len_nonneg (s : string) : 0 <= len s.
Proof. unfold len. lia. Qed.

Lemma checkCollision_In (s : list Position) (p : Position) :
  In p s -> checkCollision s p = true.
Proof.
  intros H. unfold checkCollision. apply existsb_exists. exists p.
  split; [exact H|]. now rewrite !Z.eqb_refl.
Qed.

Lemma calculateViewportWidth_range (v : option Z) :
  80 <= calculateViewportWidth v <= 150.
Proof. destruct v; simpl; lia. Qed.

Create HintDb snake_setters.
#[local] Hint Unfold set_snake set_direction set_food set_score set_isRunning set_isPaused
  set_gameLoop set_keyListener set_hiddenLines set_decorations set_timers set_draws
  clearDecorations dispose gameOver : snake_setters.

Lemma checkCollision_true_In (s : list Position) (p : Position) :
  checkCollision s p = true -> In p s.
Proof.
  unfold checkCollision. intros H. apply existsb_exists in H.
  destruct H as [[l c] [Hin Heq]]. destruct p as [l' c']. cbn in Heq.
  apply andb_true_iff in Heq. destruct Heq as [E1 E2].
  apply Z.eqb_eq in E1, E2. subst. exact Hin.
Qed.

Lemma randomIndex_range (r : Q) (n : Z) :
  (0 <= r < 1)%Q -> 0 < n -> 0 <= randomIndex r n < n.
Proof.
  intros [H0 H1] Hn. unfold randomIndex.
  assert (Hn' : (0 < inject_Z n)%Q) by (change 0%Q with (inject_Z 0); rewrite <- Zlt_Qlt; exact Hn).
  split.
  - change 0 with (Qfloor 0). apply Qfloor_resp_le.
    apply Qmult_le_0_compat; [exact H0 | apply Qlt_le_weak; exact Hn'].
  - rewrite Zlt_Qlt. apply Qle_lt_trans with (r * inject_Z n)%Q; [apply Qfloor_le|].
    apply Qlt_le_trans with (1 * inject_Z n)%Q.
    + apply Qmult_lt_r; assumption.
    + rewrite Qmult_1_l. apply Qle_refl.
Qed.

(** With [Math.random()] in [0, 1), every attempt of [spawnFood] reads an
    existing line. *)
Lemma sampleCell_some (doc : Document) (random : nat -> Q) (n : nat) :
  (forall m, 0 <= random m < 1)%Q -> exists p, sampleCell doc random n = Some p.
Proof.
  intros Hr. unfold sampleCell.
  pose proof (lineCount_pos doc).
  destruct (lineAt_in_range doc (randomIndex (random n) (lineCount doc))) as [t Ht].
  { apply randomIndex_range; [apply Hr | lia]. }
  rewrite Ht. eauto.
Qed.

Lemma spawn_loop_spec (doc : Document) (random : nat -> Q) (s : list Position)
    (left n : nat) :
  (forall m, 0 <= random m < 1)%Q ->
  exists f n', spawn_loop doc random s left n = Some (f, n') /\
    (n' <= n + 2 * left)%nat /\
    (checkCollision s f = false \/ f = spawnFallback doc) /\
    ((forall i, (i < left)%nat -> exists p, sampleCell doc random (n + 2 * i) = Some p /\
                                   checkCollision s p = true) ->
     f = spawnFallback doc).
Proof.
  intros Hr. revert n. induction left as [|left IH]; intros n.
  - exists (spawnFallback doc), n. cbn. repeat split; auto; lia.
  - cbn [spawn_loop].
    destruct (sampleCell_some doc random n Hr) as [p Hp]. rewrite Hp.
    destruct (checkCollision s p) eqn:Hc; cbn [negb].
    + destruct (IH (S (S n))) as (f & n' & E & Hle & Hor & Hall).
      exists f, n'. repeat split; auto; [lia|].
      intros Hcol. apply Hall. intros i Hi.
      replace (S (S n) + 2 * i)%nat with (n + 2 * S i)%nat by lia.
      apply Hcol. lia.
    + exists p, (S (S n)). repeat split; auto; [lia|].
      intros Hcol. destruct (Hcol 0%nat ltac:(lia)) as (q & Hq & Hqc).
      rewrite Nat.add_0_r in Hq. rewrite Hp in Hq. injection Hq as <-.
      rewrite Hc in Hqc. discriminate.
Qed.

Lemma spawnFood_fields (doc : Document) (random : nat -> Q) (g g' : Game) :
  spawnFood doc random g = Some g' ->
  exists f n, spawn_loop doc random (snake g) 100 (draws g) = Some (f, n) /\
              g' = set_draws n (set_food (Some f) g).
Proof.
  unfold spawnFood. destruct (spawn_loop doc random (snake g) 100 (draws g)) as [[f n]|];
    intros H; [|discriminate]. injection H as <-. eauto.
Qed.

Lemma render_fields (doc : Document) (g g' : Game) :
  render doc g = Some g' -> exists ds, g' = set_decorations ds g.
Proof.
  unfold render. intros H.
  destruct (hiddenLines g) as [|h hs].
  - injection H as <-. eauto.
  - destruct (map_opt _ (h :: hs)); [|discriminate].
    injection H as <-. eauto.
Qed.

Lemma hitsText_not_blank (t : string) (c : Z) :
  hitsText t c = true -> trim_empty t = false.
Proof.
  unfold hitsText, char_at, trim_empty. intros H.
  destruct (c <? 0); [rewrite andb_false_r in H; discriminate|].
  destruct (String.get (Z.to_nat c) t) as [x|] eqn:Hx;
    [|rewrite andb_false_r in H; discriminate].
  apply andb_true_iff in H as [_ Hw]. apply negb_true_iff in Hw.
  apply not_true_iff_false. intros Hall. rewrite forallb_forall in Hall.
  assert (Hin : In x (list_ascii_of_string t)).
  { clear - Hx. revert t Hx. induction (Z.to_nat c) as [|k IHk]; intros t Hx;
      destruct t as [|a t]; cbn in Hx; try discriminate.
    - injection Hx as <-. left. reflexivity.
    - right. apply IHk. exact Hx. }
  rewrite (Hall x Hin) in Hw. discriminate.
Qed.

Lemma lineAt_out_of_range (doc : Document) (i : Z) :
  (i <? 0) || (i >=? lineCount doc) = true -> lineAt doc i = None.
Proof.
  intros H. unfold lineAt. apply orb_true_iff in H as [H|H]; [now rewrite H|].
  destruct (i <? 0); [reflexivity|]. apply nth_error_None.
  unfold lineCount in H. apply Z.geb_le in H. lia.
Qed.

(** What [checkTextCollision] does: nothing, or it hides the line of a
    non-blank character of a non-blank line (adding the comment bonus). *)
Lemma checkTextCollision_cases (doc : Document) (pos : Position) (g g' : Game) :
  checkTextCollision doc pos g = Some g' ->
  (g' = g /\ commentBite doc g pos = false) \/
  (exists t, lineAt doc (line pos) = Some t /\ trim_empty t = false /\
     hitsText t (char pos) = true /\
     g' = (let g1 := if commentBite doc g pos
                     then set_score (score g + pointsPerFood g / 2) g else g in
           set_timers (timers g1 ++ [line pos])
             (set_hiddenLines (set_add (line pos) (hiddenLines g1)) g1))).
Proof.
  unfold checkTextCollision, commentBite. intros H.
  destruct ((line pos <? 0) || (line pos >=? lineCount doc)) eqn:Ho.
  - injection H as <-. left. rewrite (lineAt_out_of_range _ _ Ho). auto.
  - destruct (lineAt doc (line pos)) as [t|] eqn:Ht; [|discriminate].
    destruct (trim_empty t) eqn:Hb.
    + injection H as <-. left. split; [reflexivity|].
      destruct (hitsText t (char pos)) eqn:Hh; [|reflexivity].
      rewrite (hitsText_not_blank _ _ Hh) in Hb. discriminate.
    + destruct (hitsText t (char pos)) eqn:Hh.
      * injection H as <-. right. exists t. split; [reflexivity|].
        split; [exact Hb|]. split; [exact Hh|]. cbn [andb].
        destruct (isInComment (commentSingle g) t (char pos)); reflexivity.
      * injection H as <-. left. auto.
Qed.

(** ** Claims *)

(** C1: when the tick runs (the session is running and not paused) and the
    candidate head cell is one of the cells of the pre-move snake, the tail
    cell included, the tick is [gameOver]: the session is terminated and the
    snake, the score, the food cell and the hidden lines are unchanged. *)
Theorem update_self_collision_game_over (doc : Document) (random : nat -> Q) (g : Game)
    (head : Position) (rest : list Position) (newHead : Position) :
  isRunning g = true -> isPaused g = false ->
  snake g = head :: rest ->
  getNewHead doc g head = Some newHead ->
  In newHead (snake g) ->
  update doc random g = Some (gameOver g) /\
  isRunning (gameOver g) = false /\ gameLoop (gameOver g) = false /\
  snake (gameOver g) = snake g /\ score (gameOver g) = score g /\
  food (gameOver g) = food g /\ hiddenLines (gameOver g) = hiddenLines g.
Proof.
  intros Hr Hp Hs Hn Hin.
  pose proof (checkCollision_In _ _ Hin) as Hc.
  unfold update. rewrite Hr, Hp. simpl. rewrite Hs. rewrite Hn. rewrite <- Hs, Hc.
  repeat split.
Qed.

(** C3: for every heading, a head on a line of the document with a
    non-negative column moves to a cell with a non-negative line below the
    line count and a non-negative column, both in [src/snakeGame.ts]
    (whose [maxColumn] is set by [calculateViewportWidth]) and in the older
    compiled build; the move never throws. *)
Theorem getNewHead_in_grid (doc : Document) (g : Game) (visibleEnd : option Z)
    (head : Position) :
  maxColumn g = calculateViewportWidth visibleEnd ->
  0 <= line head < lineCount doc -> 0 <= char head ->
  (exists nh, getNewHead doc g head = Some nh /\
     0 <= line nh < lineCount doc /\ 0 <= char nh) /\
  (exists nh, getNewHead_v1 doc (direction g) head = Some nh /\
     0 <= line nh < lineCount doc /\ 0 <= char nh).
Proof.
  intros Hm Hl Hc.
  pose proof (calculateViewportWidth_range visibleEnd) as Hv. rewrite <- Hm in Hv.
  split.
  - unfold getNewHead. destruct (direction g).
    + set (l := if line head - 1 <? 0 then lineCount doc - 1 else line head - 1).
      assert (Hl' : 0 <= l < lineCount doc)
        by (subst l; destruct (Z.ltb_spec (line head - 1) 0); lia).
      destruct (lineAt_in_range doc l Hl') as [t Ht]. rewrite Ht.
      eexists; split; [reflexivity|]. cbn [line char].
      pose proof (len_nonneg t). lia.
    + set (l := if line head + 1 >=? lineCount doc then 0 else line head + 1).
      assert (Hl' : 0 <= l < lineCount doc)
        by (subst l; destruct (Z.geb_spec (line head + 1) (lineCount doc)); lia).
      destruct (lineAt_in_range doc l Hl') as [t Ht]. rewrite Ht.
      eexists; split; [reflexivity|]. cbn [line char].
      pose proof (len_nonneg t). lia.
    + eexists; split; [reflexivity|]. cbn [line char].
      destruct (Z.ltb_spec (char head - 1) 0); lia.
    + eexists; split; [reflexivity|]. cbn [line char].
      destruct (Z.geb_spec (char head + 1) (maxColumn g)); lia.
  - unfold getNewHead_v1. destruct (direction g).
    + eexists; split; [reflexivity|]. cbn [line char].
      destruct (Z.ltb_spec (line head - 1) 0); lia.
    + eexists; split; [reflexivity|]. cbn [line char].
      destruct (Z.geb_spec (line head + 1) (lineCount doc)); lia.
    + destruct (Z.ltb_spec (char head - 1) 0).
      * set (l := if line head - 1 <? 0 then lineCount doc - 1 else line head - 1).
        assert (Hl' : 0 <= l < lineCount doc)
          by (subst l; destruct (Z.ltb_spec (line head - 1) 0); lia).
        destruct (lineAt_in_range doc l Hl') as [t Ht]. rewrite Ht.
        eexists; split; [reflexivity|]. cbn [line char]. lia.
      * eexists; split; [reflexivity|]. cbn [line char]. lia.
    + destruct (lineAt_in_range doc (line head) Hl) as [t Ht]. rewrite Ht.
      destruct (Z.gtb_spec (char head + 1) (len t + 5)).
      * eexists; split; [reflexivity|]. cbn [line char].
        destruct (Z.geb_spec (line head + 1) (lineCount doc)); lia.
      * eexists; split; [reflexivity|]. cbn [line char]. lia.
Qed.

(** C4: an arrow command leaves the game state, hence the heading,
    unchanged when the session is not running, when it is paused, or when
    the requested heading is the opposite of the current one. *)
Theorem directionCommand_rejected (d : Direction) (g : Game) :
  isRunning g = false \/ isPaused g = true \/ d = opposite (direction g) ->
  directionCommand d g = g /\ direction (directionCommand d g) = direction g.
Proof.
  intros H.
  assert (E : directionCommand d g = g).
  { unfold directionCommand.
    destruct H as [H | [H | H]].
    - rewrite H. reflexivity.
    - rewrite H, andb_false_r. reflexivity.
    - subst d. destruct (direction g); simpl; rewrite andb_false_r; reflexivity. }
  rewrite E. split; reflexivity.
Qed.

(** C9: while the session is paused a tick leaves the whole game state
    unchanged: snake, heading, score, food cell and hidden lines. *)
Theorem update_paused_noop (doc : Document) (random : nat -> Q) (g : Game) :
  isPaused g = true -> update doc random g = Some g.
Proof.
  intros Hp. unfold update. rewrite Hp, orb_true_r. reflexivity.
Qed.

Lemma commentBite_same (doc : Document) (g1 g2 : Game) (p : Position) :
  commentSingle g1 = commentSingle g2 -> commentBite doc g1 p = commentBite doc g2 p.
Proof. unfold commentBite. intros ->. reflexivity. Qed.

Lemma removelast_length_cons {A : Type} (x : A) (l : list A) :
  List.length (removelast (x :: l)) = List.length l.
Proof.
  revert x. induction l as [|y l IH]; intros x; [reflexivity|].
  change (removelast (x :: y :: l)) with (x :: removelast (y :: l)).
  cbn [List.length]. rewrite IH. reflexivity.
Qed.

(** C2 (amended): in a tick that runs and does not collide with the snake,
    when the candidate head is the food cell the score grows by
    [pointsPerFood], plus the comment bonus [pointsPerFood / 2] when that
    cell is a non-white-space character inside a single-line comment; the
    snake grows by one cell and the food cell is the one drawn by
    [spawnFood] against the grown snake. When the candidate head is not the
    food cell the snake keeps its length. *)
Theorem update_food_capture (doc : Document) (random : nat -> Q) (g g' : Game)
    (head : Position) (rest : list Position) (nh : Position) :
  isRunning g = true -> isPaused g = false ->
  snake g = head :: rest ->
  getNewHead doc g head = Some nh ->
  ~ In nh (snake g) ->
  update doc random g = Some g' ->
  (food g = Some nh ->
     score g' = score g + pointsPerFood g
                + (if commentBite doc g nh then pointsPerFood g / 2 else 0) /\
     List.length (snake g') = S (List.length (snake g)) /\
     exists f n, spawn_loop doc random (nh :: snake g) 100 (draws g) = Some (f, n) /\
                 food g' = Some f) /\
  (food g <> Some nh -> List.length (snake g') = List.length (snake g)).
Proof.
  intros Hr Hp Hs Hn Hin Hu.
  assert (Hc : checkCollision (snake g) nh = false).
  { destruct (checkCollision (snake g) nh) eqn:E; [|reflexivity].
    exfalso. apply Hin, checkCollision_true_In, E. }
  unfold update in Hu. rewrite Hr, Hp in Hu. cbn [negb orb] in Hu.
  rewrite Hs in Hu. rewrite Hn in Hu. rewrite <- Hs, Hc in Hu.
  destruct nh as [nl nc].
  unfold set_snake at 1 in Hu. cbn [food snake line char] in Hu.
  destruct (food g) as [[fl fc]|] eqn:Hf.
  - cbn [line char] in Hu.
    destruct ((nl =? fl) && (nc =? fc)) eqn:Heq.
    + apply andb_true_iff in Heq as [E1 E2]. apply Z.eqb_eq in E1, E2. subst fl fc.
      destruct (spawnFood doc random _) as [g2|] eqn:Hsp; [|discriminate].
      destruct (checkTextCollision doc _ g2) as [g3|] eqn:Hct; [|discriminate].
      apply render_fields in Hu as [ds ->].
      apply spawnFood_fields in Hsp as (f & n & Hl & ->).
      split; [|intros Hne; exfalso; apply Hne; reflexivity].
      destruct (checkTextCollision_cases _ _ _ _ Hct) as [[-> Hb] | (t & _ & _ & _ & ->)].
      * change (commentBite doc ?x ?p) with (commentBite doc g p) in Hb.
        cbn - [commentBite]. rewrite Hb. split; [lia|]. split; [reflexivity|].
        exists f, n. split; [exact Hl|reflexivity].
      * change (commentBite doc ?x ?p) with (commentBite doc g p).
        cbn - [Z.div commentBite]. split.
        -- destruct (commentBite doc _ _); cbn; lia.
        -- split.
           ++ destruct (commentBite doc _ _); reflexivity.
           ++ exists f, n. split; [exact Hl|].
              destruct (commentBite doc _ _); reflexivity.
    + destruct (checkTextCollision doc _ _) as [g3|] eqn:Hct; [|discriminate].
      apply render_fields in Hu as [ds ->].
      split.
      * intros Hfe. injection Hfe as -> ->. rewrite !Z.eqb_refl in Heq. discriminate.
      * intros _.
        destruct (checkTextCollision_cases _ _ _ _ Hct) as [[-> _] | (t & _ & _ & _ & ->)];
          cbn - [removelast]; [|destruct (commentBite doc _ _); cbn - [removelast]];
          apply removelast_length_cons.
  - destruct (checkTextCollision doc _ _) as [g3|] eqn:Hct; [|discriminate].
    apply render_fields in Hu as [ds ->].
    split; [discriminate|].
    intros _.
    destruct (checkTextCollision_cases _ _ _ _ Hct) as [[-> _] | (t & _ & _ & _ & ->)];
      cbn - [removelast]; [|destruct (commentBite doc _ _); cbn - [removelast]];
      apply removelast_length_cons.
Qed.

Ltac not_in_cells := cbn; let Hc := fresh "Hc" in intros Hc; repeat destruct Hc as [Hc|Hc]; try discriminate; exact Hc.

(** C2: the claim as stated (the score grows by exactly [pointsPerFood] on
    a capture) fails when the food cell is a comment character: the bonus
    [pointsPerFood / 2] of the text collision is added in the same tick. *)
Lemma update_food_capture_exact_score_counterexample :
  ~ (forall (doc : Document) (random : nat -> Q) (g g' : Game)
            (head : Position) (rest : list Position) (nh : Position),
       isRunning g = true -> isPaused g = false -> snake g = head :: rest ->
       getNewHead doc g head = Some nh -> ~ In nh (snake g) -> food g = Some nh ->
       update doc random g = Some g' -> score g' = score g + pointsPerFood g).
Proof.
  intros H.
  assert (E := H doc_comment rnd0 g_comment g_comment_next (mkPos 0 3)
                 [mkPos 0 4; mkPos 0 5] (mkPos 0 2) eq_refl eq_refl eq_refl eq_refl
                 ltac:(not_in_cells) eq_refl ltac:(vm_compute; reflexivity)).
  vm_compute in E. discriminate E.
Qed.

Lemma update_food_capture_witness :
  (food g_comment = Some (mkPos 0 2) ->
     score g_comment_next = score g_comment + pointsPerFood g_comment
       + (if commentBite doc_comment g_comment (mkPos 0 2) then pointsPerFood g_comment / 2 else 0) /\
     List.length (snake g_comment_next) = S (List.length (snake g_comment)) /\
     exists f n, spawn_loop doc_comment rnd0 (mkPos 0 2 :: snake g_comment) 100 (draws g_comment)
                   = Some (f, n) /\ food g_comment_next = Some f) /\
  (food g_comment <> Some (mkPos 0 2) ->
     List.length (snake g_comment_next) = List.length (snake g_comment)).
Proof.
  apply (update_food_capture doc_comment rnd0 g_comment g_comment_next (mkPos 0 3)
           [mkPos 0 4; mkPos 0 5] (mkPos 0 2));
    [reflexivity | reflexivity | reflexivity | reflexivity | not_in_cells
    | vm_compute; reflexivity].
Defined.

Lemma update_self_collision_game_over_witness :
  update doc_plain rnd0 g_collide = Some (gameOver g_collide) /\
  isRunning (gameOver g_collide) = false /\ gameLoop (gameOver g_collide) = false /\
  snake (gameOver g_collide) = snake g_collide /\ score (gameOver g_collide) = score g_collide /\
  food (gameOver g_collide) = food g_collide /\
  hiddenLines (gameOver g_collide) = hiddenLines g_collide.
Proof.
  apply (update_self_collision_game_over doc_plain rnd0 g_collide (mkPos 0 3)
           [mkPos 0 2; mkPos 0 1] (mkPos 0 2));
    [reflexivity | reflexivity | reflexivity | reflexivity | simpl; tauto].
Defined.

Lemma getNewHead_in_grid_witness :
  (exists nh, getNewHead doc_plain (construct doc_plain None) (mkPos 0 0) = Some nh /\
     0 <= line nh < lineCount doc_plain /\ 0 <= char nh) /\
  (exists nh, getNewHead_v1 doc_plain (direction (construct doc_plain None)) (mkPos 0 0) = Some nh /\
     0 <= line nh < lineCount doc_plain /\ 0 <= char nh).
Proof.
  apply (getNewHead_in_grid doc_plain (construct doc_plain None) None (mkPos 0 0));
    [reflexivity | vm_compute; split; congruence | simpl; lia].
Defined.

Lemma directionCommand_rejected_witness :
  directionCommand Right (set_isRunning true (construct doc_plain None))
    = set_isRunning true (construct doc_plain None) /\
  direction (directionCommand Right (set_isRunning true (construct doc_plain None)))
    = direction (set_isRunning true (construct doc_plain None)).
Proof.
  apply (directionCommand_rejected Right (set_isRunning true (construct doc_plain None))).
  right. right. reflexivity.
Defined.

Lemma update_paused_noop_witness :
  update doc_plain rnd0 (set_isPaused true g_collide) = Some (set_isPaused true g_collide).
Proof.
  apply (update_paused_noop doc_plain rnd0 (set_isPaused true g_collide)). reflexivity.
Defined.

(** ** Frame lemmas for a whole tick *)

Lemma set_add_In (x l : Z) (s : list Z) : In l (set_add x s) -> l = x \/ In l s.
Proof.
  unfold set_add. destruct (existsb (Z.eqb x) s); [auto|].
  rewrite in_app_iff. intros [H|[H|[]]]; auto.
Qed.

(** Splits the cases of a hypothesis [H : ... = Some g'] that unfolds a
    tick, and replaces each called operation by its effect on the state. *)
Ltac split_tick :=
  repeat match goal with
  | E : context [match ?e with _ => _ end] |- _ => let E' := fresh "E" in destruct e eqn:E'
  | E : Some _ = Some _ |- _ => injection E as <-
  | E : None = Some _ |- _ => discriminate E
  end;
  repeat match goal with
  | E : render _ _ = Some _ |- _ => apply render_fields in E as [? ->]
  | E : spawnFood _ _ _ = Some _ |- _ => apply spawnFood_fields in E as (? & ? & _ & ->)
  end.

Lemma update_pointsPerFood (doc : Document) (random : nat -> Q) (g g' : Game) :
  update doc random g = Some g' -> pointsPerFood g' = pointsPerFood g.
Proof.
  unfold update. intros H. split_tick; try reflexivity;
  match goal with
  | E : checkTextCollision _ _ _ = Some _ |- _ =>
      apply checkTextCollision_cases in E as [[-> _] | (? & _ & _ & _ & ->)];
      cbn - [commentBite]; try reflexivity;
      destruct (commentBite _ _ _); reflexivity
  end.
Qed.

Lemma step_pointsPerFood (doc : Document) (random : nat -> Q) (ev : Event) (g g' : Game) :
  step doc random ev g = Some g' -> pointsPerFood g' = pointsPerFood g.
Proof.
  intros H. destruct ev; cbn [step] in H.
  - unfold start, initializeSnake in H. split_tick; reflexivity.
  - destruct (gameLoop g); [apply (update_pointsPerFood doc random); exact H|].
    injection H as <-. reflexivity.
  - unfold directionCommand in H. split_tick; reflexivity.
  - unfold togglePause in H. split_tick; reflexivity.
  - unfold stopGame in H. split_tick; reflexivity.
  - split_tick; reflexivity.
  - unfold expireHiddenLine in H. split_tick; reflexivity.
Qed.

Lemma run_pointsPerFood (doc : Document) (random : nat -> Q) (evs : list Event) (g g' : Game) :
  run doc random evs g = Some g' -> pointsPerFood g' = pointsPerFood g.
Proof.
  revert g. induction evs as [|ev evs IH]; intros g H; cbn [run] in H.
  - injection H as <-. reflexivity.
  - destruct (step doc random ev g) as [g1|] eqn:E; [|discriminate].
    rewrite (IH g1 H). apply (step_pointsPerFood doc random ev). exact E.
Qed.

(** C6: [pointsPerFood] is [max(1, floor(lineCount / 10))] of the document
    the session is constructed on, and no event of the session (start,
    ticks, commands, expiry callbacks) changes it; 100, 50 and 9 lines give
    10, 5 and 1 points. *)
Theorem pointsPerFood_fixed_at_start (doc : Document) (visibleEnd : option Z)
    (random : nat -> Q) (evs : list Event) :
  pointsPerFood (construct doc visibleEnd) = Z.max 1 (lineCount doc / 10) /\
  match run doc random evs (construct doc visibleEnd) with
  | Some g => pointsPerFood g = Z.max 1 (lineCount doc / 10)
  | None => True
  end /\
  calculatePoints 100 = 10 /\ calculatePoints 50 = 5 /\ calculatePoints 9 = 1.
Proof.
  split; [reflexivity|].
  split; [|repeat split].
  destruct (run doc random evs (construct doc visibleEnd)) as [g|] eqn:E; [|exact I].
  apply run_pointsPerFood in E. exact E.
Qed.

Lemma checkTextCollision_hidden (doc : Document) (pos : Position) (g g' : Game) :
  checkTextCollision doc pos g = Some g' ->
  forall l, In l (hiddenLines g') -> In l (hiddenLines g) \/ nonBlankLine doc l.
Proof.
  intros H l Hl.
  destruct (checkTextCollision_cases _ _ _ _ H) as [[-> _] | (t & Ht & Hb & _ & ->)];
    [auto|].
  assert (Hl' : In l (set_add (line pos) (hiddenLines g))).
  { destruct (commentBite doc g pos); exact Hl. }
  apply set_add_In in Hl' as [->|Hl']; [right; exists t; auto | left; exact Hl'].
Qed.

(** C7: for every head cell, the text-collision check adds to the hidden
    lines only a line whose trimmed text is not empty; hence a tick keeps
    the invariant that no hidden line is blank. *)
Theorem hidden_lines_never_blank (doc : Document) (random : nat -> Q) (pos : Position)
    (g g1 g2 : Game) :
  checkTextCollision doc pos g = Some g1 ->
  update doc random g = Some g2 ->
  (forall l, In l (hiddenLines g1) -> ~ In l (hiddenLines g) ->
     exists t, lineAt doc l = Some t /\ trim_empty t = false) /\
  (noBlankHidden doc g -> noBlankHidden doc g2).
Proof.
  intros Hc Hu. split.
  - intros l Hl Hn. destruct (checkTextCollision_hidden _ _ _ _ Hc l Hl); tauto.
  - intros Hinv. unfold update in Hu. split_tick; try exact Hinv;
    unfold noBlankHidden, set_decorations; cbn [hiddenLines];
    match goal with
    | E : checkTextCollision _ _ _ = Some _ |- _ =>
        let k := fresh "k" in let Hk := fresh "Hk" in
        intros k Hk; apply (checkTextCollision_hidden _ _ _ _ E) in Hk as [Hk|Hk];
        [apply Hinv; autounfold with snake_setters in Hk; exact Hk | exact Hk]
    end.
Qed.

(** C8: with [Math.random()] in [0, 1), [spawnFood] always returns (it
    never throws) after at most 100 attempts (200 calls of [Math.random()]);
    the food cell is a free sampled cell or the fallback cell
    [(floor(lineCount / 2), 10)], and it is the fallback whenever all 100
    attempts hit the snake, whatever the snake and the document. *)
Theorem spawnFood_bounded_with_fallback (doc : Document) (random : nat -> Q) (g : Game) :
  (forall m, 0 <= random m < 1)%Q ->
  exists f n, spawnFood doc random g = Some (set_draws n (set_food (Some f) g)) /\
    (n <= draws g + 200)%nat /\
    (checkCollision (snake g) f = false \/ f = spawnFallback doc) /\
    ((forall i, (i < 100)%nat ->
        exists p, sampleCell doc random (draws g + 2 * i) = Some p /\
                  checkCollision (snake g) p = true) ->
     f = mkPos (lineCount doc / 2) 10).
Proof.
  intros Hr.
  destruct (spawn_loop_spec doc random (snake g) 100 (draws g) Hr)
    as (f & n & E & Hle & Hor & Hall).
  exists f, n. unfold spawnFood. rewrite E.
  split; [reflexivity|]. split; [lia|]. split; [exact Hor|]. exact Hall.
Qed.

Lemma spawn_loop_free_or_fallback (doc : Document) (random : nat -> Q) (s : list Position)
    (left n n' : nat) (f : Position) :
  spawn_loop doc random s left n = Some (f, n') ->
  checkCollision s f = false \/ f = spawnFallback doc.
Proof.
  revert n. induction left as [|left IH]; intros n H; cbn [spawn_loop] in H.
  - injection H as <- _. right. reflexivity.
  - destruct (sampleCell doc random n) as [p|]; [|discriminate].
    destruct (checkCollision s p) eqn:Hc; cbn [negb] in H.
    + exact (IH _ H).
    + injection H as <- _. left. exact Hc.
Qed.

Lemma sampleCell_short_hits (random : nat -> Q) (n : nat) :
  (forall m, 0 <= random m < 1)%Q ->
  exists p, sampleCell doc_short random n = Some p /\ checkCollision snake_full p = true.
Proof.
  intros Hr. unfold sampleCell.
  assert (Hl : randomIndex (random n) (lineCount doc_short) = 0).
  { pose proof (randomIndex_range (random n) (lineCount doc_short) (Hr n) ltac:(reflexivity)).
    change (lineCount doc_short) with 1 in *. lia. }
  rewrite Hl. cbn - [randomIndex checkCollision snake_full].
  eexists; split; [reflexivity|].
  pose proof (randomIndex_range (random (S n)) 10 (Hr (S n)) ltac:(lia)) as Hc.
  apply checkCollision_In. unfold snake_full. apply in_map_iff.
  exists (randomIndex (random (S n)) 10). split; [reflexivity|].
  destruct Hc as [H0 H1].
  destruct (randomIndex (random (S n)) 10) as [|c|c]; [left; reflexivity| |lia].
  cbn. assert (Hp : (c < 10)%positive) by lia.
  do 10 (destruct c as [c|c|]; try (cbn; tauto); try lia).
Qed.

(** C10: the food cell of [spawnFood] lies off the snake unless it is the
    fallback cell, which is assigned without an occupancy check: on the
    one-empty-line document with the snake [(0, 0) .. (0, 10)], for every
    draw of [Math.random()] in [0, 1), the food lands on the snake. *)
Theorem spawnFood_fallback_may_hit_snake (doc : Document) (random : nat -> Q) (g g' : Game) :
  spawnFood doc random g = Some g' ->
  (exists f, food g' = Some f /\ (checkCollision (snake g) f = false \/ f = spawnFallback doc)) /\
  (forall random0, (forall m, 0 <= random0 m < 1)%Q ->
     exists g0', spawnFood doc_short random0 g_full = Some g0' /\
                 food g0' = Some (spawnFallback doc_short) /\
                 checkCollision (snake g_full) (spawnFallback doc_short) = true).
Proof.
  intros H. split.
  - apply spawnFood_fields in H as (f & n & E & ->).
    exists f. split; [reflexivity|]. exact (spawn_loop_free_or_fallback _ _ _ _ _ _ _ E).
  - intros random0 Hr.
    destruct (spawn_loop_spec doc_short random0 snake_full 100 (draws g_full) Hr)
      as (f & n & E & _ & _ & Hall).
    assert (Hf : f = spawnFallback doc_short).
    { apply Hall. intros i _. apply sampleCell_short_hits, Hr. }
    subst f. exists (set_draws n (set_food (Some (spawnFallback doc_short)) g_full)).
    unfold spawnFood. change (snake g_full) with snake_full. rewrite E.
    split; [reflexivity|]. split; reflexivity.
Qed.

(** C5 (failing input): the expiry callback of line 0 fires after the
    session has been terminated by the exit command: it still deletes the
    line from the hidden lines and calls [render], which puts the head, body
    and food decorations back on the editor after [dispose] cleared them. *)
Theorem expiry_after_game_over_not_noop :
  run doc_plain rnd0 [Start; Tick; ExitCmd] (construct doc_plain None) = Some g_over /\
  isRunning g_over = false /\ decorations g_over = [] /\
  hiddenLines g_over = [0] /\ timers g_over = [0] /\
  exists g', step doc_plain rnd0 (Expire 0) g_over = Some g' /\
    hiddenLines g' = [] /\ decorations g' <> [].
Proof.
  split; [vm_compute; reflexivity|].
  split; [vm_compute; reflexivity|].
  split; [vm_compute; reflexivity|].
  split; [vm_compute; reflexivity|].
  split; [vm_compute; reflexivity|].
  eexists. split; [vm_compute; reflexivity|].
  split; [vm_compute; reflexivity | vm_compute; discriminate].
Qed.

Lemma hidden_lines_never_blank_witness :
  (forall l, In l (hiddenLines (or_else (checkTextCollision doc_plain (mkPos 0 5) g_started) g_started)) ->
     ~ In l (hiddenLines g_started) ->
     exists t, lineAt doc_plain l = Some t /\ trim_empty t = false) /\
  (noBlankHidden doc_plain g_started ->
   noBlankHidden doc_plain (or_else (update doc_plain rnd0 g_started) g_started)).
Proof.
  apply (hidden_lines_never_blank doc_plain rnd0 (mkPos 0 5) g_started
           (or_else (checkTextCollision doc_plain (mkPos 0 5) g_started) g_started)
           (or_else (update doc_plain rnd0 g_started) g_started));
    vm_compute; reflexivity.
Defined.

Lemma spawnFood_bounded_with_fallback_witness :
  exists f n, spawnFood doc_plain rnd0 g_collide = Some (set_draws n (set_food (Some f) g_collide)) /\
    (n <= draws g_collide + 200)%nat /\
    (checkCollision (snake g_collide) f = false \/ f = spawnFallback doc_plain) /\
    ((forall i, (i < 100)%nat ->
        exists p, sampleCell doc_plain rnd0 (draws g_collide + 2 * i) = Some p /\
                  checkCollision (snake g_collide) p = true) ->
     f = mkPos (lineCount doc_plain / 2) 10).
Proof.
  apply (spawnFood_bounded_with_fallback doc_plain rnd0 g_collide).
  intros m. split; vm_compute; [intros E; discriminate E | reflexivity].
Defined.

Lemma spawnFood_fallback_may_hit_snake_witness :
  (exists f, food (or_else (spawnFood doc_short rnd0 g_full) g_full) = Some f /\
     (checkCollision (snake g_full) f = false \/ f = spawnFallback doc_short)) /\
  (forall random0, (forall m, 0 <= random0 m < 1)%Q ->
     exists g0', spawnFood doc_short random0 g_full = Some g0' /\
                 food g0' = Some (spawnFallback doc_short) /\
                 checkCollision (snake g_full) (spawnFallback doc_short) = true).
Proof.
  apply (spawnFood_fallback_may_hit_snake doc_short rnd0 g_full
           (or_else (spawnFood doc_short rnd0 g_full) g_full)).
  vm_compute. reflexivity.
Defined.

(** * Further properties of the engine *)

(** ** Helpers *)

Lemma clampLine_range (doc : Document) (l : Z) : 0 <= clampLine doc l < lineCount doc.
Proof. unfold clampLine. pose proof (lineCount_pos doc). lia. Qed.

Lemma map_opt_total {A B : Type} (f : A -> option B) (l : list A) :
  (forall x, In x l -> exists y, f x = Some y) ->
  exists ys, map_opt f l = Some ys /\ forall y, In y ys -> exists x, In x l /\ f x = Some y.
Proof.
  induction l as [|x l IH]; intros H.
  - exists []. split; [reflexivity|]. intros y [].
  - destruct (H x (or_introl eq_refl)) as [y Hy].
    destruct IH as [ys [E Hys]]; [intros z Hz; apply H; right; exact Hz|].
    exists (y :: ys). cbn. rewrite Hy, E. split; [reflexivity|].
    intros z [<-|Hz]; [exists x; auto|].
    destruct (Hys z Hz) as [w [Hw Hw']]. exists w. auto.
Qed.

Lemma render_some (doc : Document) (g : Game) :
  exists g', render doc g = Some g' /\
    forall r, In r (flat_map decoRanges (decorations g')) ->
      0 <= startLine r < lineCount doc /\ endLine r = startLine r /\
      0 <= startChar r <= endChar r.
Proof.
  unfold render.
  assert (Hcell : forall p w, 0 <= w ->
            0 <= startLine (cellRange doc p w) < lineCount doc /\
            endLine (cellRange doc p w) = startLine (cellRange doc p w) /\
            0 <= startChar (cellRange doc p w) <= endChar (cellRange doc p w)).
  { intros p w Hw. unfold cellRange. cbn [startLine endLine startChar endChar].
    pose proof (clampLine_range doc (line p)). lia. }
  destruct (map_opt_total (fun l => let* t := lineAt doc (clampLine doc l) in
                                    Some (mkRange (clampLine doc l) 0 (clampLine doc l) (len t)))
                          (hiddenLines g))
    as [rs [Ers Hrs]].
  { intros l _. cbn zeta.
    destruct (lineAt_in_range doc (clampLine doc l) (clampLine_range doc l)) as [t Ht].
    rewrite Ht. eauto. }
  assert (Hhid : forall r, In r rs ->
            0 <= startLine r < lineCount doc /\ endLine r = startLine r /\
            0 <= startChar r <= endChar r).
  { intros r Hr. destruct (Hrs r Hr) as [l [_ Hl]]. cbn zeta in Hl.
    destruct (lineAt doc (clampLine doc l)) as [t|]; [|discriminate].
    injection Hl as <-. cbn [startLine endLine startChar endChar].
    pose proof (clampLine_range doc l).
    pose proof (len_nonneg t). lia. }
  destruct (hiddenLines g) as [|h hs] eqn:Eh.
  - eexists. split; [reflexivity|]. intros r Hr. cbn [decorations set_decorations] in Hr.
    rewrite !flat_map_app in Hr. rewrite !in_app_iff in Hr.
    destruct Hr as [Hr|[Hr|[Hr|Hr]]].
    + destruct (snake g) as [|p ps]; cbn in Hr; [contradiction|].
      rewrite ?app_nil_r in Hr. destruct Hr as [<-|[]]. apply Hcell. lia.
    + destruct (snake g) as [|p [|q ps]]; cbn [flat_map decoRanges app In] in Hr; try contradiction.
      rewrite ?app_nil_r in Hr. apply in_map_iff in Hr as [x [<- _]]. apply Hcell. lia.
    + destruct (food g) as [f|]; cbn in Hr; [|contradiction].
      destruct Hr as [<-|[]]. apply Hcell. lia.
    + contradiction.
  - rewrite Ers. eexists. split; [reflexivity|]. intros r Hr.
    cbn [decorations set_decorations] in Hr.
    rewrite !flat_map_app in Hr. rewrite !in_app_iff in Hr.
    destruct Hr as [Hr|[Hr|[Hr|Hr]]].
    + destruct (snake g) as [|p ps]; cbn in Hr; [contradiction|].
      rewrite ?app_nil_r in Hr. destruct Hr as [<-|[]]. apply Hcell. lia.
    + destruct (snake g) as [|p [|q ps]]; cbn [flat_map decoRanges app In] in Hr; try contradiction.
      rewrite ?app_nil_r in Hr. apply in_map_iff in Hr as [x [<- _]]. apply Hcell. lia.
    + destruct (food g) as [f|]; cbn in Hr; [|contradiction].
      destruct Hr as [<-|[]]. apply Hcell. lia.
    + cbn in Hr. rewrite ?app_nil_r in Hr. apply Hhid. exact Hr.
Qed.


Lemma getNewHead_grid (doc : Document) (g : Game) (head : Position) :
  80 <= maxColumn g ->
  0 <= line head < lineCount doc -> 0 <= char head ->
  exists nh, getNewHead doc g head = Some nh /\ 0 <= line nh < lineCount doc /\ 0 <= char nh.
Proof.
  intros Hv Hl Hc. unfold getNewHead. destruct (direction g).
  - set (l := if line head - 1 <? 0 then lineCount doc - 1 else line head - 1).
    assert (Hl' : 0 <= l < lineCount doc)
      by (subst l; destruct (Z.ltb_spec (line head - 1) 0); lia).
    destruct (lineAt_in_range doc l Hl') as [t Ht]. rewrite Ht.
    eexists; split; [reflexivity|]. cbn [line char]. pose proof (len_nonneg t). lia.
  - set (l := if line head + 1 >=? lineCount doc then 0 else line head + 1).
    assert (Hl' : 0 <= l < lineCount doc)
      by (subst l; destruct (Z.geb_spec (line head + 1) (lineCount doc)); lia).
    destruct (lineAt_in_range doc l Hl') as [t Ht]. rewrite Ht.
    eexists; split; [reflexivity|]. cbn [line char]. pose proof (len_nonneg t). lia.
  - eexists; split; [reflexivity|]. cbn [line char].
    destruct (Z.ltb_spec (char head - 1) 0); lia.
  - eexists; split; [reflexivity|]. cbn [line char].
    destruct (Z.geb_spec (char head + 1) (maxColumn g)); lia.
Qed.

Lemma in_removelast {A : Type} (x : A) (l : list A) : In x (removelast l) -> In x l.
Proof.
  induction l as [|y l IH]; [intros []|].
  destruct l as [|z l]; [intros []|].
  change (removelast (y :: z :: l)) with (y :: removelast (z :: l)).
  intros [<-|H]; [left; reflexivity | right; apply IH, H].
Qed.

Lemma NoDup_removelast {A : Type} (l : list A) : NoDup l -> NoDup (removelast l).
Proof.
  induction l as [|y l IH]; [auto|]. intros H. inversion H as [|? ? Hy Hl]; subst.
  destruct l as [|z l]; [constructor|].
  change (removelast (y :: z :: l)) with (y :: removelast (z :: l)).
  constructor; [intros Hin; apply Hy, in_removelast, Hin | apply IH, Hl].
Qed.

Lemma spawnFood_some (doc : Document) (random : nat -> Q) (g : Game) :
  (forall m, 0 <= random m < 1)%Q ->
  exists f n, spawnFood doc random g = Some (set_draws n (set_food (Some f) g)).
Proof.
  intros Hr. unfold spawnFood.
  destruct (spawn_loop_spec doc random (snake g) 100 (draws g) Hr) as (f & n & E & _).
  rewrite E. eauto.
Qed.


Lemma grow_inv (doc : Document) (s : list Position) (nh : Position) :
  inGrid doc nh -> checkCollision s nh = false -> Forall (inGrid doc) s -> NoDup s ->
  Forall (inGrid doc) (nh :: s) /\ NoDup (nh :: s).
Proof.
  intros Hg Hc Hs Hn. split; [constructor; assumption|].
  constructor; [|exact Hn]. intros Hin.
  rewrite (checkCollision_In s nh Hin) in Hc. discriminate.
Qed.

Lemma move_inv (doc : Document) (s : list Position) (nh : Position) :
  inGrid doc nh -> checkCollision s nh = false -> Forall (inGrid doc) s -> NoDup s ->
  Forall (inGrid doc) (removelast (nh :: s)) /\ NoDup (removelast (nh :: s)).
Proof.
  intros Hg Hc Hs Hn. destruct (grow_inv doc s nh Hg Hc Hs Hn) as [Hf Hd].
  split; [|apply NoDup_removelast, Hd].
  rewrite Forall_forall in *. intros x Hx. apply Hf, in_removelast, Hx.
Qed.

Lemma checkTextCollision_frame (doc : Document) (pos : Position) (g g' : Game) :
  checkTextCollision doc pos g = Some g' ->
  snake g' = snake g /\ maxColumn g' = maxColumn g /\ gameLoop g' = gameLoop g.
Proof.
  intros H. apply checkTextCollision_cases in H as [[-> _] | (? & _ & _ & _ & ->)];
    [auto|]. cbn - [commentBite]. destruct (commentBite _ _ _); cbn; auto.
Qed.

Lemma tick_tail_inv (doc : Document) (nh : Position) (g2 g' : Game) :
  80 <= maxColumn g2 <= 150 -> Forall (inGrid doc) (snake g2) -> NoDup (snake g2) ->
  snake g2 <> [] ->
  (let* g3 := checkTextCollision doc nh g2 in render doc g3) = Some g' ->
  sessionInv doc g'.
Proof.
  intros Hm Hg Hd Hne H.
  destruct (checkTextCollision doc nh g2) as [g3|] eqn:E3; [|discriminate].
  apply render_fields in H as [ds ->].
  apply checkTextCollision_frame in E3 as (Es & Em & _).
  unfold sessionInv, snakeInGrid. cbn [snake maxColumn gameLoop set_decorations].
  rewrite Es, Em. auto.
Qed.

Lemma update_sessionInv (doc : Document) (random : nat -> Q) (g g' : Game) :
  sessionInv doc g -> update doc random g = Some g' -> sessionInv doc g'.
Proof.
  intros (Hm & Hgrid & Hnd & Hloop) H. unfold update in H.
  destruct (negb (isRunning g) || isPaused g) eqn:Hrun.
  { injection H as <-. exact (conj Hm (conj Hgrid (conj Hnd Hloop))). }
  unfold snakeInGrid in Hgrid.
  destruct (snake g) as [|hd tl] eqn:Es; [discriminate|].
  pose proof (Forall_inv Hgrid) as [Hl Hc0].
  destruct (getNewHead_grid doc g hd ltac:(lia) Hl Hc0) as [nh [Enh Hnh]].
  rewrite Enh in H. cbv beta iota zeta in H.
  destruct (checkCollision (hd :: tl) nh) eqn:Hc.
  { injection H as <-. refine (conj Hm (conj _ (conj _ _)));
      unfold snakeInGrid; change (snake (gameOver g)) with (snake g); rewrite Es;
      [exact Hgrid | exact Hnd | intros _; discriminate]. }
  assert (Hin : inGrid doc nh) by exact Hnh.
  destruct (grow_inv doc _ nh Hin Hc Hgrid Hnd) as [Hg1 Hd1].
  destruct (move_inv doc _ nh Hin Hc Hgrid Hnd) as [Hg2 Hd2].
  change (food (set_snake (nh :: hd :: tl) g)) with (food g) in H.
  assert (Hmove : (let* g3 := checkTextCollision doc nh
                     (set_snake (removelast (snake (set_snake (nh :: hd :: tl) g)))
                        (set_snake (nh :: hd :: tl) g)) in render doc g3) = Some g' ->
                  sessionInv doc g').
  { apply tick_tail_inv; cbn [snake maxColumn set_snake]; auto; cbn [removelast]; discriminate. }
  destruct (food g) as [f|].
  - destruct ((line nh =? line f) && (char nh =? char f)); [|exact (Hmove H)].
    destruct (spawnFood _ _ _) as [g2|] eqn:Esp; [|discriminate].
    apply spawnFood_fields in Esp as (? & ? & _ & ->).
    revert H. apply tick_tail_inv; cbn [snake maxColumn set_snake set_score set_food set_draws];
      auto; discriminate.
  - exact (Hmove H).
Qed.

Lemma init_cells_inv (doc : Document) (a m : Z) :
  0 <= a -> 80 <= m ->
  Forall (inGrid doc) [mkPos 0 (Z.min a (m - 3)); mkPos 0 (Z.min a (m - 3) + 1);
                       mkPos 0 (Z.min a (m - 3) + 2)] /\
  NoDup [mkPos 0 (Z.min a (m - 3)); mkPos 0 (Z.min a (m - 3) + 1);
         mkPos 0 (Z.min a (m - 3) + 2)].
Proof.
  intros Ha Hm. pose proof (lineCount_pos doc).
  split.
  - repeat constructor; cbn [line char]; lia.
  - repeat constructor; cbn; intros Hin; repeat destruct Hin as [Hin|Hin];
      try injection Hin; try lia; exact Hin.
Qed.

Lemma dispose_inv (doc : Document) (g : Game) : sessionInv doc g -> sessionInv doc (dispose g).
Proof.
  intros (Hm & Hg & Hd & _). refine (conj Hm (conj Hg (conj Hd _))).
  intros H. discriminate H.
Qed.

Lemma step_sessionInv (doc : Document) (random : nat -> Q) (ev : Event) (g g' : Game) :
  sessionInv doc g -> step doc random ev g = Some g' -> sessionInv doc g'.
Proof.
  intros Hinv H. destruct ev; cbn [step] in H.
  - unfold start, initializeSnake in H. cbv beta zeta in H.
    destruct (lineAt doc 0) as [t|]; [|discriminate]. cbv beta iota zeta in H.
    destruct (spawnFood _ _ _) as [g2|] eqn:Esp; [|discriminate].
    apply spawnFood_fields in Esp as (? & ? & _ & ->).
    apply render_fields in H as [ds ->].
    destruct Hinv as (Hm & _).
    destruct (init_cells_inv doc (len t) (maxColumn g) (len_nonneg t) ltac:(lia)) as [Hg Hd].
    refine (conj Hm (conj Hg (conj Hd _))). intros _. discriminate.
  - destruct (gameLoop g); [exact (update_sessionInv doc random g g' Hinv H)|].
    injection H as <-. exact Hinv.
  - unfold directionCommand in H.
    destruct (keyListener g); [|injection H as <-; exact Hinv].
    destruct (_ && _ && _); injection H as <-; exact Hinv.
  - unfold togglePause in H.
    destruct (keyListener g); [|injection H as <-; exact Hinv].
    destruct (negb (isRunning g)); injection H as <-; exact Hinv.
  - unfold stopGame in H.
    destruct (keyListener g); [|injection H as <-; exact Hinv].
    destruct (negb (isRunning g)); injection H as <-; [exact Hinv | apply dispose_inv, Hinv].
  - destruct (keyListener g); injection H as <-; [|exact Hinv].
    apply dispose_inv, Hinv.
  - destruct (existsb (Z.eqb l) (timers g)); [|injection H as <-; exact Hinv].
    unfold expireHiddenLine in H. apply render_fields in H as [ds ->]. exact Hinv.
Qed.

Lemma start_spec (doc : Document) (random : nat -> Q) (g : Game) :
  (forall m, 0 <= random m < 1)%Q ->
  exists f n ds, start doc random g =
    Some (set_decorations ds (set_gameLoop true (set_keyListener true
      (set_draws n (set_food (Some f) (set_direction Left
        (set_snake [mkPos 0 (Z.min (len (firstLine doc)) (maxColumn g - 3));
                    mkPos 0 (Z.min (len (firstLine doc)) (maxColumn g - 3) + 1);
                    mkPos 0 (Z.min (len (firstLine doc)) (maxColumn g - 3) + 2)]
          (set_isRunning true g)))))))).
Proof.
  intros Hr. unfold start, initializeSnake. cbv beta zeta.
  change (lineAt doc 0) with (Some (firstLine doc)). cbv beta iota zeta.
  match goal with |- context [spawnFood doc random ?x] =>
    destruct (spawnFood_some doc random x Hr) as (f & n & ->) end.
  cbv beta iota zeta.
  match goal with |- context [render doc ?x] =>
    destruct (render_some doc x) as [g' [Hg _]] end.
  rewrite Hg. apply render_fields in Hg as [ds ->]. eauto.
Qed.


Lemma construct_inv (doc : Document) (visibleEnd : option Z) :
  sessionInv doc (construct doc visibleEnd).
Proof.
  refine (conj (calculateViewportWidth_range visibleEnd) (conj _ (conj _ _))).
  - constructor.
  - constructor.
  - intros H. discriminate H.
Qed.

Lemma run_sessionInv (doc : Document) (random : nat -> Q) (evs : list Event) (g g' : Game) :
  sessionInv doc g -> run doc random evs g = Some g' -> sessionInv doc g'.
Proof.
  revert g. induction evs as [|ev evs IH]; intros g Hinv H; cbn [run] in H.
  - injection H as <-. exact Hinv.
  - destruct (step doc random ev g) as [g1|] eqn:E; [|discriminate].
    exact (IH g1 (step_sessionInv doc random ev g g1 Hinv E) H).
Qed.


Lemma tick_tail_fields (doc : Document) (nh : Position) (g2 g' : Game) :
  (let* g3 := checkTextCollision doc nh g2 in render doc g3) = Some g' ->
  snake g' = snake g2 /\ (0 <= pointsPerFood g2 -> score g2 <= score g').
Proof.
  intros H. destruct (checkTextCollision doc nh g2) as [g3|] eqn:E3; [|discriminate].
  apply render_fields in H as [ds ->]. cbn [snake score set_decorations].
  apply checkTextCollision_cases in E3 as [[-> _] | (? & _ & _ & _ & ->)];
    [split; [reflexivity | lia]|].
  cbn - [commentBite]. destruct (commentBite _ _ _); cbn; split; try reflexivity;
    intros Hp; pose proof (Z.div_pos (pointsPerFood g2) 2 Hp ltac:(lia)); lia.
Qed.

Lemma update_score_length (doc : Document) (random : nat -> Q) (g g' : Game) :
  update doc random g = Some g' ->
  (0 <= pointsPerFood g -> score g <= score g') /\
  (List.length (snake g') = List.length (snake g) \/
   List.length (snake g') = S (List.length (snake g))).
Proof.
  intros H. unfold update in H.
  destruct (negb (isRunning g) || isPaused g).
  { injection H as <-. split; [lia | left; reflexivity]. }
  destruct (snake g) as [|hd tl] eqn:Es; [discriminate|].
  destruct (getNewHead doc g hd) as [nh|]; [|discriminate].
  cbv beta iota zeta in H.
  destruct (checkCollision (hd :: tl) nh).
  { injection H as <-. split; [intros _; apply Z.le_refl|].
    left. change (snake (gameOver g)) with (snake g). rewrite Es. reflexivity. }
  change (food (set_snake (nh :: hd :: tl) g)) with (food g) in H.
  assert (Hmove : (let* g3 := checkTextCollision doc nh
                     (set_snake (removelast (snake (set_snake (nh :: hd :: tl) g)))
                        (set_snake (nh :: hd :: tl) g)) in render doc g3) = Some g' ->
                  (0 <= pointsPerFood g -> score g <= score g') /\
                  (List.length (snake g') = List.length (hd :: tl) \/
                   List.length (snake g') = S (List.length (hd :: tl)))).
  { intros Hm. apply tick_tail_fields in Hm as [Hs Hsc].
    split; [exact Hsc|]. left. rewrite Hs. cbn [snake set_snake].
    apply removelast_length_cons. }
  destruct (food g) as [f|].
  - destruct ((line nh =? line f) && (char nh =? char f)); [|exact (Hmove H)].
    destruct (spawnFood _ _ _) as [g2|] eqn:Esp; [|discriminate].
    apply spawnFood_fields in Esp as (? & ? & _ & ->).
    apply tick_tail_fields in H as [Hs Hsc].
    cbn [snake score pointsPerFood set_snake set_score set_food set_draws] in Hs, Hsc.
    split; [intros Hp; specialize (Hsc ltac:(lia)); lia|].
    right. rewrite Hs. reflexivity.
  - exact (Hmove H).
Qed.

Lemma step_score_mono (doc : Document) (random : nat -> Q) (ev : Event) (g g' : Game) :
  0 <= pointsPerFood g -> step doc random ev g = Some g' -> score g <= score g'.
Proof.
  intros Hp H. destruct ev; cbn [step] in H.
  - unfold start, initializeSnake in H. cbv beta zeta in H.
    destruct (lineAt doc 0) as [t|]; [|discriminate]. cbv beta iota zeta in H.
    destruct (spawnFood _ _ _) as [g2|] eqn:Esp; [|discriminate].
    apply spawnFood_fields in Esp as (? & ? & _ & ->).
    apply render_fields in H as [ds ->]. cbn. lia.
  - destruct (gameLoop g); [exact (proj1 (update_score_length doc random g g' H) Hp)|].
    injection H as <-. lia.
  - unfold directionCommand in H.
    destruct (keyListener g); [|injection H as <-; lia].
    destruct (_ && _ && _); injection H as <-; cbn; lia.
  - unfold togglePause in H.
    destruct (keyListener g); [|injection H as <-; lia].
    destruct (negb (isRunning g)); injection H as <-; cbn; lia.
  - unfold stopGame in H.
    destruct (keyListener g); [|injection H as <-; lia].
    destruct (negb (isRunning g)); injection H as <-; cbn; lia.
  - destruct (keyListener g); injection H as <-; cbn; lia.
  - destruct (existsb (Z.eqb l) (timers g)); [|injection H as <-; lia].
    unfold expireHiddenLine in H. apply render_fields in H as [ds ->]. cbn. lia.
Qed.

Lemma run_score_mono (doc : Document) (random : nat -> Q) (evs : list Event) (g g' : Game) :
  0 <= pointsPerFood g -> run doc random evs g = Some g' -> score g <= score g'.
Proof.
  revert g. induction evs as [|ev evs IH]; intros g Hp H; cbn [run] in H.
  - injection H as <-. lia.
  - destruct (step doc random ev g) as [g1|] eqn:E; [|discriminate].
    pose proof (step_score_mono doc random ev g g1 Hp E).
    pose proof (step_pointsPerFood doc random ev g g1 E).
    specialize (IH g1 ltac:(lia) H). lia.
Qed.


(** ** Extra properties *)

(** X1: with [Math.random()] in [0, 1), [start] on a fresh session succeeds:
    it places a snake of three adjacent cells on line 0, from column
    [s = min(length of line 0, maxColumn - 3)] to [s + 2], inside the grid,
    heading left; the session is running, not paused, with the interval and
    the commands registered, a score of 0 and a food cell; and the first
    move of the head does not run into the snake. *)
Theorem start_initial_session (doc : Document) (visibleEnd : option Z) (random : nat -> Q)
    (Hr : forall m, (0 <= random m < 1)%Q) :
  exists g s, start doc random (construct doc visibleEnd) = Some g /\
    s = Z.min (len (firstLine doc)) (maxColumn g - 3) /\
    snake g = [mkPos 0 s; mkPos 0 (s + 1); mkPos 0 (s + 2)] /\
    0 <= s /\ s + 2 < maxColumn g /\
    direction g = Left /\ isRunning g = true /\ isPaused g = false /\
    gameLoop g = true /\ keyListener g = true /\ score g = 0 /\
    (exists f, food g = Some f) /\
    exists nh, getNewHead doc g (mkPos 0 s) = Some nh /\ checkCollision (snake g) nh = false.
Proof.
  destruct (start_spec doc random (construct doc visibleEnd) Hr) as (f & n & ds & ->).
  pose proof (calculateViewportWidth_range visibleEnd) as Hv.
  pose proof (len_nonneg (firstLine doc)) as Hl.
  set (s := Z.min (len (firstLine doc)) (maxColumn (construct doc visibleEnd) - 3)).
  assert (Hs : 0 <= s /\ s + 2 < maxColumn (construct doc visibleEnd))
    by (subst s; cbn [maxColumn construct]; lia).
  eexists; exists s. split; [reflexivity|].
  split; [reflexivity|]. split; [reflexivity|].
  split; [exact (proj1 Hs)|]. split; [exact (proj2 Hs)|].
  do 6 (split; [reflexivity|]). split; [eexists; reflexivity|].
  unfold getNewHead. cbn [direction set_decorations set_gameLoop set_keyListener set_draws
    set_food set_direction set_snake set_isRunning].
  eexists. split; [reflexivity|].
  cbn [line char maxColumn construct].
  destruct (checkCollision _ _) eqn:Hc; [|reflexivity].
  apply checkCollision_true_In in Hc.
  cbn [snake set_decorations set_gameLoop set_keyListener set_draws set_food set_direction
    set_snake set_isRunning] in Hc.
  cbn [maxColumn construct] in Hs.
  repeat destruct Hc as [Hc|Hc]; try contradiction; injection Hc as Hc;
    destruct (Z.ltb_spec (s - 1) 0); lia.
Qed.


(** X3: [togglePause] applied twice gives back the state, whether the
    session is running or not: a pause and a resume undo each other. *)
Theorem togglePause_involutive (g : Game) : togglePause (togglePause g) = g.
Proof.
  destruct g as [s d f sc r p gl kl h pp cs mc ds ts n].
  unfold togglePause, set_isPaused. cbn [isRunning isPaused].
  destruct r; cbn [negb]; [destruct p|]; reflexivity.
Qed.


(** X5: for a document in html, xml, css, scss or less, [detectLanguage]
    loads no single-line comment pattern, so a text collision never adds
    the comment bonus: the score is unchanged, even when the line is
    hidden. *)
Theorem markup_no_comment_bonus (doc : Document) (pos : Position) (g g' : Game)
    (Hlang : In (languageId doc) ["html"; "xml"; "css"; "scss"; "less"]%string)
    (Hpat : commentSingle g = detectLanguage (languageId doc))
    (H : checkTextCollision doc pos g = Some g') :
  score g' = score g.
Proof.
  assert (Hnil : commentSingle g = []).
  { rewrite Hpat. destruct Hlang as [<-|[<-|[<-|[<-|[<-|[]]]]]]; reflexivity. }
  apply checkTextCollision_cases in H as [[-> _] | (t & Ht & _ & _ & ->)]; [reflexivity|].
  assert (Hb : commentBite doc g pos = false).
  { unfold commentBite. rewrite Ht, Hnil. cbn [isInComment]. apply andb_false_r. }
  rewrite Hb. reflexivity.
Qed.

(** X6: [render] never fails, whatever the state: every range it decorates
    is on a line of the document (stale hidden lines and cells are clamped
    to the last line), on one line, and starts at a non-negative column
    before its end. *)
Theorem render_ranges_in_document (doc : Document) (g : Game) :
  exists g', render doc g = Some g' /\
    forall r, In r (flat_map decoRanges (decorations g')) ->
      0 <= startLine r < lineCount doc /\ endLine r = startLine r /\
      0 <= startChar r <= endChar r.
Proof. exact (render_some doc g). Qed.


(** X8: the score never decreases during a session: from any state reached
    from the constructor, any further events leave a score at least as
    high. *)
Theorem session_score_never_decreases (doc : Document) (visibleEnd : option Z)
    (random : nat -> Q) (evs1 evs2 : list Event) (g1 g2 : Game)
    (H1 : run doc random evs1 (construct doc visibleEnd) = Some g1)
    (H2 : run doc random evs2 g1 = Some g2) :
  score g1 <= score g2.
Proof.
  apply (run_score_mono doc random evs2 g1 g2); [|exact H2].
  rewrite (run_pointsPerFood doc random evs1 _ g1 H1).
  cbn [pointsPerFood construct]. unfold calculatePoints. lia.
Qed.


(** X10: in every state of a session, every cell of the snake is on a line
    of the document at a non-negative column, no two cells coincide, and
    the snake is nonempty while the interval is registered. *)
Theorem session_snake_well_formed (doc : Document) (visibleEnd : option Z) (random : nat -> Q)
    (evs : list Event) (g : Game)
    (H : run doc random evs (construct doc visibleEnd) = Some g) :
  snakeInGrid doc g /\ NoDup (snake g) /\ (gameLoop g = true -> snake g <> []).
Proof.
  exact (proj2 (run_sessionInv doc random evs _ g (construct_inv doc visibleEnd) H)).
Qed.


(** X12: horizontal moves wrap around at the same columns both ways: from a
    column in [0, maxColumn), a move right followed by a move left (or left
    then right) comes back to the same cell. *)
Theorem horizontal_move_round_trip (doc : Document) (g : Game) (h : Position)
    (Hc : 0 <= char h < maxColumn g) :
  (exists h1, getNewHead doc (set_direction Right g) h = Some h1 /\
              getNewHead doc (set_direction Left g) h1 = Some h) /\
  (exists h1, getNewHead doc (set_direction Left g) h = Some h1 /\
              getNewHead doc (set_direction Right g) h1 = Some h).
Proof.
  destruct h as [l c]. cbn [char] in Hc. unfold getNewHead.
  cbn [direction set_direction maxColumn line char].
  split; eexists; split; try reflexivity; cbn [line char]; f_equal; f_equal.
  - destruct (Z.geb_spec (c + 1) (maxColumn g)).
    + destruct (Z.ltb_spec (0 - 1) 0); lia.
    + destruct (Z.ltb_spec (c + 1 - 1) 0); lia.
  - destruct (Z.ltb_spec (c - 1) 0).
    + destruct (Z.geb_spec (maxColumn g - 1 + 1) (maxColumn g)); lia.
    + destruct (Z.geb_spec (c - 1 + 1) (maxColumn g)); lia.
Qed.


(** ** Witnesses of the extra properties *)

Lemma start_initial_session_witness :
  exists g s, start doc_plain rnd0 (construct doc_plain None) = Some g /\
    s = Z.min (len (firstLine doc_plain)) (maxColumn g - 3) /\
    snake g = [mkPos 0 s; mkPos 0 (s + 1); mkPos 0 (s + 2)] /\
    0 <= s /\ s + 2 < maxColumn g /\
    direction g = Left /\ isRunning g = true /\ isPaused g = false /\
    gameLoop g = true /\ keyListener g = true /\ score g = 0 /\
    (exists f, food g = Some f) /\
    exists nh, getNewHead doc_plain g (mkPos 0 s) = Some nh /\
               checkCollision (snake g) nh = false.
Proof.
  apply (start_initial_session doc_plain None rnd0).
  intros m. split; vm_compute; [intros E; discriminate E | reflexivity].
Defined.


Lemma markup_no_comment_bonus_witness :
  score (or_else (checkTextCollision doc_html (mkPos 0 1) g_html) g_html) = score g_html.
Proof.
  apply (markup_no_comment_bonus doc_html (mkPos 0 1) g_html).
  - left. reflexivity.
  - reflexivity.
  - vm_compute. reflexivity.
Defined.


Lemma session_score_never_decreases_witness :
  score g_started <=
  score (or_else (run doc_plain rnd0 [Tick; Tick] g_started) g_started).
Proof.
  apply (session_score_never_decreases doc_plain None rnd0 [Start] [Tick; Tick]).
  - vm_compute. reflexivity.
  - vm_compute. reflexivity.
Defined.


Lemma session_snake_well_formed_witness :
  let g := or_else (run doc_plain rnd0 [Start; Tick; Tick] (construct doc_plain None))
                   (construct doc_plain None) in
  snakeInGrid doc_plain g /\ NoDup (snake g) /\ (gameLoop g = true -> snake g <> []).
Proof.
  apply (session_snake_well_formed doc_plain None rnd0 [Start; Tick; Tick]).
  vm_compute. reflexivity.
Defined.


Lemma horizontal_move_round_trip_witness :
  (exists h1, getNewHead doc_plain (set_direction Right g_started) (mkPos 0 3) = Some h1 /\
              getNewHead doc_plain (set_direction Left g_started) h1 = Some (mkPos 0 3)) /\
  (exists h1, getNewHead doc_plain (set_direction Left g_started) (mkPos 0 3) = Some h1 /\
              getNewHead doc_plain (set_direction Right g_started) h1 = Some (mkPos 0 3)).
Proof.
  apply (horizontal_move_round_trip doc_plain g_started (mkPos 0 3)).
  vm_compute. split; [intros E; discriminate E | reflexivity].
Defined.

